(** * psycopg3.errors: the DBAPI exception hierarchy and the error factory

    A shallow embedding of [psycopg3/errors.py]:
    - the class statements (each class with the base it is declared with),
      Python's method resolution over them, [issubclass] and [isinstance];
    - exception objects (type, [args], instance [__dict__]) and the two
      [__init__] bodies reachable from the hierarchy, [BaseException]'s and
      [Error.__init__];
    - [class_for_state] and [error_from_result].

    Calls are fallible (a call of a class may raise [TypeError]), so every
    call returns a [result]. *)

From Stdlib Require Import Strings.String Strings.Byte List ZArith.
From stdpp Require Import base option gmap strings.
Import ListNotations.
Local Open Scope string_scope.

(** ** Python values and outcomes *)

(** Python [bytes]. *)
Definition bytes := list byte.

(** A bytes literal, [b"..."]. *)
Definition b (s : string) : bytes := list_byte_of_string s.

(** The exceptions a call in this module can raise by itself. *)
Inductive raised :=
  | TypeError.

(** The outcome of evaluating a Python call: a value, or a raised
    exception. *)
Inductive result (A : Type) :=
  | Ok (a : A)
  | Raise (e : raised).
Arguments Ok {A} a.
Arguments Raise {A} e.

(** Sequencing: a raised exception propagates. *)
Global Instance result_ret : MRet result := fun A a => Ok a.

Global Instance result_bind : MBind result := fun A B k m =>
  match m with
  | Ok a => k a
  | Raise e => Raise e
  end.

(** ** The diagnostic record *)

(** [pq.DiagnosticField]: the fields of a result's diagnostic. *)
Inductive DiagnosticField :=
  | SEVERITY
  | SQLSTATE
  | MESSAGE_PRIMARY
  | MESSAGE_DETAIL
  | MESSAGE_HINT
  | CONTEXT
  | SOURCE_FILE
  | SOURCE_LINE
  | SOURCE_FUNCTION.

(** Modelled from the spec: [psycopg3.pq.PGresult], which [errors.py] only
    names under [TYPE_CHECKING]. The spec's diagnostic record: the SQLSTATE
    code (optional), the primary message, already decoded to text, and the
    optional extras severity, detail, hint, context and source
    file/line/routine. *)
Record PGresult := {
  sqlstate : option bytes;
  message_primary : option string;
  severity : option string;
  message_detail : option string;
  message_hint : option string;
  context : option string;
  source_file : option string;
  source_line : option string;
  source_function : option string
}.

(** Modelled from the spec: [PGresult.error_field], a method of that same
    class. The code field is the record's code, or [None] when absent; the
    text fields are handed out as their bytes. *)
Definition error_field (r : PGresult) (f : DiagnosticField) : option bytes :=
  match f with
  | SQLSTATE => sqlstate r
  | SEVERITY => list_byte_of_string <$> severity r
  | MESSAGE_PRIMARY => list_byte_of_string <$> message_primary r
  | MESSAGE_DETAIL => list_byte_of_string <$> message_detail r
  | MESSAGE_HINT => list_byte_of_string <$> message_hint r
  | CONTEXT => list_byte_of_string <$> context r
  | SOURCE_FILE => list_byte_of_string <$> source_file r
  | SOURCE_LINE => list_byte_of_string <$> source_line r
  | SOURCE_FUNCTION => list_byte_of_string <$> source_function r
  end.

(** Modelled from the spec: [pq.error_message], which [error_from_result]
    imports from the [pq] package. The display text is the record's primary
    message; a record without one gives the empty placeholder. *)
Definition error_message (r : PGresult) : string :=
  default "" (message_primary r).

(** Python values that reach the exception constructors. *)
Inductive value :=
  | VNone
  | VStr (s : string)
  | VBytes (bs : bytes)
  | VInt (z : Z)
  | VResult (r : PGresult).

(** ** The class hierarchy *)

(** The classes of the module, with the builtin [Exception] they hang
    from. *)
Inductive class :=
  | Exception
  | Warning
  | Error
  | InterfaceError
  | DatabaseError
  | DataError
  | OperationalError
  | IntegrityError
  | InternalError
  | ProgrammingError
  | NotSupportedError.

Global Instance class_eq_dec : EqDecision class.
Proof. solve_decision. Defined.

(** The base named in each [class] statement. [Exception] is the root of
    the model. *)
Definition base (c : class) : option class :=
  match c with
  | Exception => None
  | Warning => Some Exception
  | Error => Some Exception
  | InterfaceError => Some Error
  | DatabaseError => Some Error
  | DataError => Some DatabaseError
  | OperationalError => Some DatabaseError
  | IntegrityError => Some DatabaseError
  | InternalError => Some DatabaseError
  | ProgrammingError => Some DatabaseError
  | NotSupportedError => Some DatabaseError
  end.

(** The linearisation of a single-inheritance chain: the class, then its
    base's chain. *)
Fixpoint mro_from (fuel : nat) (c : class) : list class :=
  c :: match fuel with
       | O => []
       | S n => match base c with
                | Some d => mro_from n d
                | None => []
                end
       end.

(** Eleven classes: no chain is longer. *)
Definition mro (c : class) : list class := mro_from 11 c.

Definition issubclass (c d : class) : bool := bool_decide (d ∈ mro c).

(** The nine categories an error can be classified into. *)
Definition categories : list class :=
  [Warning; InterfaceError; DatabaseError; DataError; OperationalError;
   IntegrityError; InternalError; ProgrammingError; NotSupportedError].

(** ** Exception objects *)

(** An exception object: its type, [BaseException.args], and the instance
    [__dict__]. *)
Record instance := {
  ob_type : class;
  args : list value;
  ob_dict : gmap string value
}.

Definition isinstance (o : instance) (c : class) : bool :=
  issubclass (ob_type o) c.

Definition getattr (o : instance) (name : string) : option value :=
  ob_dict o !! name.

Definition hasattr (o : instance) (name : string) : bool :=
  bool_decide (is_Some (getattr o name)).

Definition setattr (o : instance) (name : string) (v : value) : instance :=
  {| ob_type := ob_type o; args := args o;
     ob_dict := <[name := v]> (ob_dict o) |}.

(** [BaseException.__new__]: a fresh object of the class, with the
    positional arguments as [args]; keywords are ignored here. *)
Definition Exception_new (c : class) (a : list value) : instance :=
  {| ob_type := c; args := a; ob_dict := ∅ |}.

(** [BaseException.__init__]: takes no keyword arguments, stores the
    positional ones as [args]. *)
Definition Exception_init (self : instance) (a : list value)
    (kwargs : gmap string value) : result instance :=
  if bool_decide (dom kwargs = ∅)
  then Ok {| ob_type := ob_type self; args := a; ob_dict := ob_dict self |}
  else Raise TypeError.

(** [Error.__init__(self, *args, pgresult = None)]:
<<
        super().__init__( *args )
        self.pgresult = pgresult
>>
    [pgresult] is the only keyword the signature binds; any other one is a
    [TypeError]. *)
Definition Error_init (self : instance) (a : list value)
    (kwargs : gmap string value) : result instance :=
  if bool_decide (dom kwargs ⊆ {["pgresult"]})
  then
    let pgresult := default VNone (kwargs !! "pgresult") in
    self ← Exception_init self a ∅;
    mret (setattr self "pgresult" pgresult)
  else Raise TypeError.

(** Whether the class body defines [__init__] itself. Only [Error] does;
    [Exception] has the builtin one. *)
Definition defines_init (c : class) : bool :=
  match c with
  | Exception | Error => true
  | _ => false
  end.

(** The class whose [__init__] a call of [c] runs: the first along the
    MRO that defines one. *)
Definition init_owner (c : class) : option class :=
  List.find defines_init (mro c).

(** Calling a class with positional and keyword arguments: [__new__],
    then the [__init__] found along the MRO. *)
Definition call (c : class) (a : list value) (kwargs : gmap string value)
    : result instance :=
  let self := Exception_new c a in
  match init_owner c with
  | Some Error => Error_init self a kwargs
  | _ => Exception_init self a kwargs
  end.

(** ** The classifier and the factory *)

(** [class_for_state(sqlstate)]:
<<
    # TODO: stub
    return DatabaseError
>>
    The argument is what [error_field] gave: the code, or [None]. *)
Definition class_for_state (sqlstate : option bytes) : result class :=
  mret DatabaseError.

(** [error_from_result(result)]:
<<
    cls = class_for_state(result.error_field(pq.DiagnosticField.SQLSTATE))
    return cls(pq.error_message(result))
>> *)
Definition error_from_result (r : PGresult) : result instance :=
  cls ← class_for_state (error_field r SQLSTATE);
  call cls [VStr (error_message r)] ∅.

(** ** SQLSTATE codes *)

(** A digit or an upper-case letter. *)
Definition sqlstate_char (c : byte) : bool :=
  let n := Byte.to_N c in
  ((48 <=? n) && (n <=? 57) || (65 <=? n) && (n <=? 90))%N.

(** Five characters of that alphabet. *)
Definition is_sqlstate (s : bytes) : bool :=
  (length s =? 5)%nat && forallb sqlstate_char s.

(** The class of a code: its first two characters. *)
Definition sqlstate_class (s : bytes) : bytes := take 2 s.

(** An input the classifier is specified on: no code, or a well-formed
    one. *)
Definition classifiable (s : option bytes) : Prop :=
  match s with
  | None => True
  | Some c => is_sqlstate c = true
  end.

(** A result as the server reports a unique violation. *)
Definition unique_violation : PGresult :=
  {| sqlstate := Some (b "23505");
     message_primary :=
       Some "duplicate key value violates unique constraint";
     severity := Some "ERROR";
     message_detail := Some "Key (id)=(1) already exists.";
     message_hint := None;
     context := None;
     source_file := Some "nbtinsert.c";
     source_line := Some "563";
     source_function := Some "_bt_check_unique" |}.

(** A client-side failure: no code, only a message. *)
Definition pool_exhausted : PGresult :=
  {| sqlstate := None;
     message_primary := Some "connection pool exhausted";
     severity := None;
     message_detail := None;
     message_hint := None;
     context := None;
     source_file := None;
     source_line := None;
     source_function := None |}.

(** ** The documented hierarchy *)

(** The tree drawn in the module docstring, line by line: how deep each
    name is indented, and the class it names (the root line stands for the
    builtin [Exception]).
<<
    Exceptions
    |__Warning
    |__Error
       |__InterfaceError
       |__DatabaseError
          |__DataError
          |__OperationalError
          |__IntegrityError
          |__InternalError
          |__ProgrammingError
          |__NotSupportedError
>> *)
Definition documented : list (nat * class) :=
  [(0, Exception);
   (1, Warning);
   (1, Error);
   (2, InterfaceError);
   (2, DatabaseError);
   (3, DataError);
   (3, OperationalError);
   (3, IntegrityError);
   (3, InternalError);
   (3, ProgrammingError);
   (3, NotSupportedError)]%nat.

(** Reading the drawing: [path] is the chain of names from the root down
    to the previous line; a line at depth [d] hangs from the [d]-th name of
    it. *)
Fixpoint parents (path : list class) (lines : list (nat * class))
    : list (class * option class) :=
  match lines with
  | [] => []
  | (d, c) :: rest =>
      let above := take d path in
      (c, last above) :: parents (above ++ [c]) rest
  end.

(** The parent the docstring gives a class, if it draws one. *)
Definition documented_base (c : class) : option class :=
  match List.find (fun p => bool_decide (p.1 = c)) (parents [] documented) with
  | Some p => p.2
  | None => None
  end.

(** * Properties *)

(** ** The hierarchy *)

(** Three steps reach [Exception] from any class, so the fuel of [mro] is
    enough: more of it changes nothing. *)
Lemma mro_from_enough (n : nat) (c : class) :
  3 <= n -> mro_from n c = mro c.
Proof.
  intros Hn.
  destruct n as [|[|[|[|n]]]]; [lia | lia | lia | |]; by destruct c.
Qed.

Lemma mro_ends_in_Exception (c : class) : last (mro c) = Some Exception.
Proof. by destruct c. Qed.

Lemma issubclass_refl (c : class) : issubclass c c = true.
Proof. by destruct c. Qed.


Lemma issubclass_trans (c d e : class) :
  issubclass c d = true -> issubclass d e = true -> issubclass c e = true.
Proof.
  intros Hcd Hde.
  destruct c, d; try discriminate Hcd; destruct e;
    try discriminate Hde; reflexivity.
Qed.

(** The subclasses of [Error] are [Error] and the eight classes declared
    under it. *)
Lemma issubclass_Error_iff (c : class) :
  issubclass c Error = true <-> c <> Exception /\ c <> Warning.
Proof.
  split.
  - destruct c; intros H; try discriminate H; split; discriminate.
  - intros [H1 H2]. destruct c; try reflexivity; contradiction.
Qed.

(** Below [Error], a call runs [Error.__init__]. *)
Lemma call_Error (c : class) a kwargs :
  issubclass c Error = true ->
  call c a kwargs = Error_init (Exception_new c a) a kwargs.
Proof. intros H. destruct c; try discriminate H; reflexivity. Qed.

(** [Warning] inherits the builtin [__init__]. *)
Lemma call_Warning a kwargs :
  call Warning a kwargs = Exception_init (Exception_new Warning a) a kwargs.
Proof. reflexivity. Qed.

Lemma Error_init_pgresult self a pg :
  Error_init self a {["pgresult" := pg]}
  = Ok {| ob_type := ob_type self; args := a;
          ob_dict := <["pgresult" := pg]> (ob_dict self) |}.
Proof. reflexivity. Qed.

Lemma Error_init_default self a :
  Error_init self a ∅
  = Ok {| ob_type := ob_type self; args := a;
          ob_dict := <["pgresult" := VNone]> (ob_dict self) |}.
Proof. reflexivity. Qed.

(** ** The classifier and the factory, computed *)

Lemma class_for_state_eq (s : option bytes) :
  class_for_state s = Ok DatabaseError.
Proof. reflexivity. Qed.

Lemma error_from_result_eq (r : PGresult) :
  error_from_result r
  = Ok {| ob_type := DatabaseError;
          args := [VStr (error_message r)];
          ob_dict := {["pgresult" := VNone]} |}.
Proof. reflexivity. Qed.

Example error_from_result_unique_violation :
  error_from_result unique_violation
  = Ok {| ob_type := DatabaseError;
          args := [VStr "duplicate key value violates unique constraint"];
          ob_dict := {["pgresult" := VNone]} |}.
Proof. reflexivity. Qed.

(** ** Construction of exceptions *)

(** A call of [Warning] that returns gives the bare object: the builtin
    [__init__] sets no attribute. *)
Lemma call_Warning_inv a kwargs w :
  call Warning a kwargs = Ok w -> w = Exception_new Warning a.
Proof.
  rewrite call_Warning. unfold Exception_init.
  case_bool_decide; [by intros [= <-] | discriminate].
Qed.

(** Every category but [Warning] is below [Error]. *)
Lemma categories_below_Error (c : class) :
  c ∈ categories -> c <> Warning -> issubclass c Error = true.
Proof.
  intros Hc Hw. apply issubclass_Error_iff. split; [|assumption].
  intros ->. unfold categories in Hc.
  rewrite !elem_of_cons, elem_of_nil in Hc.
  destruct Hc as [H|[H|[H|[H|[H|[H|[H|[H|[H|[]]]]]]]]]]; discriminate H.
Qed.

(** Below [Error], a call with a [pgresult] gives an [Error] instance
    carrying it. *)
Lemma call_Error_carries (c : class) a pg :
  issubclass c Error = true ->
  exists e, call c a {["pgresult" := pg]} = Ok e
            /\ isinstance e Error = true
            /\ getattr e "pgresult" = Some pg.
Proof.
  intros Hsub. rewrite (call_Error _ _ _ Hsub), Error_init_pgresult.
  eexists. split; [reflexivity|]. split; [exact Hsub | reflexivity].
Qed.

(** C9. For [Error] and every subclass of it, a call stores the [pgresult]
    keyword unchanged as the instance's [pgresult] attribute, [None] when
    the keyword is omitted, and the positional arguments unchanged as
    [args]; the object has the called class as its type and no other
    attribute. *)
Theorem Error_call_stores_inputs (c : class) (a : list value) :
  issubclass c Error = true ->
  (forall pg : value,
      call c a {["pgresult" := pg]}
      = Ok {| ob_type := c; args := a;
              ob_dict := {["pgresult" := pg]} |})
  /\ call c a ∅
     = Ok {| ob_type := c; args := a;
             ob_dict := {["pgresult" := VNone]} |}.
Proof.
  intros Hsub. split; [intros pg|]; rewrite (call_Error _ _ _ Hsub).
  - by rewrite Error_init_pgresult.
  - by rewrite Error_init_default.
Qed.

Lemma Error_call_stores_inputs_witness :
  issubclass IntegrityError Error = true
  /\ call IntegrityError [VStr "duplicate key"; VInt 7]
       {["pgresult" := VResult unique_violation]}
     = Ok {| ob_type := IntegrityError;
             args := [VStr "duplicate key"; VInt 7];
             ob_dict := {["pgresult" := VResult unique_violation]} |}.
Proof.
  split; [reflexivity|].
  apply (Error_call_stores_inputs IntegrityError
           [VStr "duplicate key"; VInt 7]).
  reflexivity.
Defined.

(** C10. [Warning] is declared directly under [Exception] and is not a
    subclass of [Error]: an object made by calling [Warning] is not an
    [Error] instance and has no [pgresult] attribute. [InterfaceError] is
    declared directly under [Error]; [DataError], [OperationalError],
    [IntegrityError], [InternalError], [ProgrammingError] and
    [NotSupportedError] are declared under [DatabaseError], itself under
    [Error]. Each of these categories is a subclass of [Error], and a call
    of it with a [pgresult] gives an [Error] instance that carries it. *)
Theorem Warning_outside_Error_hierarchy :
  (base Warning = Some Exception /\ issubclass Warning Error = false)
  /\ (forall a kwargs w,
        call Warning a kwargs = Ok w ->
        isinstance w Error = false /\ hasattr w "pgresult" = false)
  /\ base InterfaceError = Some Error
  /\ base DatabaseError = Some Error
  /\ (forall c,
        c ∈ [DataError; OperationalError; IntegrityError; InternalError;
             ProgrammingError; NotSupportedError] ->
        base c = Some DatabaseError)
  /\ (forall c,
        c ∈ categories -> c <> Warning ->
        issubclass c Error = true
        /\ forall a pg, exists e,
             call c a {["pgresult" := pg]} = Ok e
             /\ isinstance e Error = true
             /\ getattr e "pgresult" = Some pg).
Proof.
  split; [by split|].
  split.
  { intros a kwargs w Hcall. apply call_Warning_inv in Hcall as ->.
    by split. }
  split; [reflexivity|]. split; [reflexivity|].
  split.
  { intros c Hc. rewrite !elem_of_cons, elem_of_nil in Hc.
    destruct Hc as [->|[->|[->|[->|[->|[->|[]]]]]]]; reflexivity. }
  intros c Hc Hw. pose proof (categories_below_Error c Hc Hw) as Hsub.
  split; [assumption|]. intros a pg. by apply call_Error_carries.
Qed.

Lemma Warning_outside_Error_hierarchy_witness :
  call Warning [VStr "data truncated"] ∅
  = Ok (Exception_new Warning [VStr "data truncated"])
  /\ isinstance (Exception_new Warning [VStr "data truncated"]) Error = false
  /\ hasattr (Exception_new Warning [VStr "data truncated"]) "pgresult"
     = false.
Proof.
  split; [reflexivity|].
  apply (proj1 (proj2 Warning_outside_Error_hierarchy)
           [VStr "data truncated"] ∅).
  reflexivity.
Defined.

(** ** The classifier *)

(** C8. Classification is total: on no code and on every five-character
    code over digits and upper-case letters, [class_for_state] returns,
    without raising, exactly one class, and that class is one of the
    categories. *)
Theorem class_for_state_total (s : option bytes) :
  classifiable s ->
  (exists! cls, class_for_state s = Ok cls /\ cls ∈ categories)
  /\ forall e, class_for_state s <> Raise e.
Proof.
  intros _. split; [|discriminate].
  exists DatabaseError. split.
  - split; [reflexivity|]. unfold categories. set_solver.
  - intros cls [[= <-] _]. reflexivity.
Qed.

Lemma class_for_state_total_witness :
  classifiable (Some (b "42P01"))
  /\ (exists! cls,
        class_for_state (Some (b "42P01")) = Ok cls /\ cls ∈ categories)
  /\ classifiable None
  /\ (exists! cls, class_for_state None = Ok cls /\ cls ∈ categories).
Proof.
  split; [reflexivity|]. split.
  - apply (class_for_state_total (Some (b "42P01"))). reflexivity.
  - split; [exact I|]. apply (class_for_state_total None). exact I.
Defined.

(** C6. A five-character code gets [DatabaseError]. The source keeps no
    table of codes or of classes, so every code is one without an exact
    entry and without a class entry; [99XYZ] is such a code. *)
Theorem class_for_state_unknown (c : bytes) :
  is_sqlstate c = true ->
  class_for_state (Some c) = Ok DatabaseError.
Proof. intros _. apply class_for_state_eq. Qed.

Lemma class_for_state_unknown_witness :
  is_sqlstate (b "99XYZ") = true
  /\ class_for_state (Some (b "99XYZ")) = Ok DatabaseError.
Proof.
  split; [reflexivity|].
  apply (class_for_state_unknown (b "99XYZ")). reflexivity.
Defined.

(** C2, on the code: for [23505], the unique violation the spec places in
    [IntegrityError], [class_for_state] returns [DatabaseError], which is
    not [IntegrityError]; the code is ignored. *)
Theorem class_for_state_23505 :
  is_sqlstate (b "23505") = true
  /\ class_for_state (Some (b "23505")) = Ok DatabaseError
  /\ class_for_state (Some (b "23505")) <> Ok IntegrityError.
Proof. repeat split. discriminate. Qed.

(** C3, on the code: for a code of each of the classes [22], [23], [42],
    [08], [0A] and [40], [class_for_state] returns [DatabaseError] and not
    the category of the class ([DataError], [IntegrityError],
    [ProgrammingError], [OperationalError], [NotSupportedError],
    [OperationalError]). *)
Theorem class_for_state_ignores_class :
  Forall (fun '(code, category) =>
            is_sqlstate code = true
            /\ class_for_state (Some code) = Ok DatabaseError
            /\ class_for_state (Some code) <> Ok category)
    [(b "22012", DataError);
     (b "23000", IntegrityError);
     (b "42601", ProgrammingError);
     (b "08006", OperationalError);
     (b "0A000", NotSupportedError);
     (b "40001", OperationalError)].
Proof. repeat constructor; discriminate. Qed.

(** The claim of C4 fails at [01004]: a well-formed code of class [01] for
    which [class_for_state] does not return [Warning]. *)
Lemma class_for_state_01004_not_Warning :
  is_sqlstate (b "01004") = true
  /\ sqlstate_class (b "01004") = b "01"
  /\ class_for_state (Some (b "01004")) <> Ok Warning.
Proof. repeat split. discriminate. Qed.

(** C4, amended. For every five-character code of class [01], whatever its
    subclass characters, [class_for_state] returns a subclass of [Error],
    as its return type [Type[Error]] says, and so never [Warning]. *)
Theorem class_for_state_class_01 (c : bytes) :
  is_sqlstate c = true ->
  sqlstate_class c = b "01" ->
  exists cls, class_for_state (Some c) = Ok cls
              /\ issubclass cls Error = true
              /\ cls <> Warning.
Proof.
  intros _ _. exists DatabaseError.
  split; [apply class_for_state_eq|]. split; [reflexivity | discriminate].
Qed.

Lemma class_for_state_class_01_witness :
  is_sqlstate (b "01004") = true
  /\ sqlstate_class (b "01004") = b "01"
  /\ exists cls, class_for_state (Some (b "01004")) = Ok cls
                 /\ issubclass cls Error = true
                 /\ cls <> Warning.
Proof.
  split; [reflexivity|]. split; [reflexivity|].
  apply (class_for_state_class_01 (b "01004")); reflexivity.
Defined.

(** ** The factory *)

(** C1, on the code: the error [error_from_result] builds from a result
    has [None] as its [pgresult] attribute, not the result: the call of
    the class passes the message only. *)
Theorem error_from_result_pgresult_None (r : PGresult) :
  exists e, error_from_result r = Ok e
            /\ getattr e "pgresult" = Some VNone
            /\ getattr e "pgresult" <> Some (VResult r).
Proof.
  eexists. split; [apply error_from_result_eq|].
  split; [reflexivity | discriminate].
Qed.

(** C7. The error built from a result has one argument, the primary
    message of the result as it stands, whatever the other fields hold. *)
Theorem error_from_result_args (r : PGresult) (m : string) :
  message_primary r = Some m ->
  exists e, error_from_result r = Ok e /\ args e = [VStr m].
Proof.
  intros Hm. eexists. split; [apply error_from_result_eq|].
  simpl. unfold error_message. by rewrite Hm.
Qed.

Lemma error_from_result_args_witness :
  message_primary unique_violation
  = Some "duplicate key value violates unique constraint"
  /\ exists e,
       error_from_result unique_violation = Ok e
       /\ args e
          = [VStr "duplicate key value violates unique constraint"].
Proof.
  split; [reflexivity|].
  apply (error_from_result_args unique_violation). reflexivity.
Defined.

(** The claim of C5 fails on a result without a code: the class is not
    [InterfaceError], and the error built is not an [InterfaceError]
    instance. *)
Lemma error_from_result_absent_not_InterfaceError :
  error_field pool_exhausted SQLSTATE = None
  /\ class_for_state (error_field pool_exhausted SQLSTATE)
     <> Ok InterfaceError
  /\ exists e, error_from_result pool_exhausted = Ok e
               /\ isinstance e InterfaceError = false.
Proof.
  split; [reflexivity|]. split; [discriminate|].
  eexists. split; [apply error_from_result_eq | reflexivity].
Qed.

(** C5, amended. When the result has no SQLSTATE code, classification
    returns a subclass of [Error], and the error built from the result is
    an instance of that class whose only argument is the result's
    message. *)
Theorem error_from_result_absent (r : PGresult) (m : string) :
  error_field r SQLSTATE = None ->
  message_primary r = Some m ->
  exists cls e,
    class_for_state (error_field r SQLSTATE) = Ok cls
    /\ issubclass cls Error = true
    /\ error_from_result r = Ok e
    /\ ob_type e = cls
    /\ args e = [VStr m].
Proof.
  intros _ Hm. exists DatabaseError. eexists.
  split; [apply class_for_state_eq|]. split; [reflexivity|].
  split; [apply error_from_result_eq|]. split; [reflexivity|].
  simpl. unfold error_message. by rewrite Hm.
Qed.

Lemma error_from_result_absent_witness :
  error_field pool_exhausted SQLSTATE = None
  /\ message_primary pool_exhausted = Some "connection pool exhausted"
  /\ exists cls e,
       class_for_state (error_field pool_exhausted SQLSTATE) = Ok cls
       /\ issubclass cls Error = true
       /\ error_from_result pool_exhausted = Ok e
       /\ ob_type e = cls
       /\ args e = [VStr "connection pool exhausted"].
Proof.
  split; [reflexivity|]. split; [reflexivity|].
  apply (error_from_result_absent pool_exhausted); reflexivity.
Defined.

(** * Further properties of the module *)

(** ** The hierarchy as declared and as documented *)


(** X2. The docstring's drawing of the hierarchy and the class statements
    agree: every class has in the drawing the parent it is declared
    with. *)
Theorem documented_base_eq (c : class) : documented_base c = base c.
Proof. by destruct c. Qed.

(** X3. [issubclass] orders the classes: it is reflexive, antisymmetric
    and transitive, and [Exception] is above every class. *)
Theorem issubclass_partial_order :
  (forall c, issubclass c c = true)
  /\ (forall c d,
        issubclass c d = true -> issubclass d c = true -> c = d)
  /\ (forall c d e,
        issubclass c d = true -> issubclass d e = true ->
        issubclass c e = true)
  /\ (forall c, issubclass c Exception = true).
Proof.
  split; [exact issubclass_refl|]. split.
  - intros c d Hcd Hdc.
    destruct c, d; try discriminate Hcd; try discriminate Hdc; reflexivity.
  - split; [exact issubclass_trans|]. intros c. by destruct c.
Qed.



(** ** Calls of the classes *)

Lemma Exception_init_positional self a :
  Exception_init self a ∅
  = Ok {| ob_type := ob_type self; args := a; ob_dict := ob_dict self |}.
Proof. reflexivity. Qed.

(** What a call of a class below [Error] comes to, for any keywords. *)
Lemma call_Error_eq (c : class) a (kwargs : gmap string value) :
  issubclass c Error = true ->
  call c a kwargs
  = if bool_decide (dom kwargs ⊆ {["pgresult"]})
    then Ok {| ob_type := c; args := a;
               ob_dict := {["pgresult" :=
                              default VNone (kwargs !! "pgresult")]} |}
    else Raise TypeError.
Proof.
  intros Hsub. rewrite (call_Error _ _ _ Hsub). unfold Error_init.
  by case_bool_decide.
Qed.

(** What a call of a class outside [Error] comes to. *)
Lemma call_not_Error_eq (c : class) a (kwargs : gmap string value) :
  issubclass c Error = false ->
  call c a kwargs
  = if bool_decide (dom kwargs = ∅)
    then Ok (Exception_new c a)
    else Raise TypeError.
Proof. intros Hsub. by destruct c; try discriminate Hsub. Qed.

(** X5. [Error] and its subclasses take no keyword but [pgresult]: a call
    with any other keyword raises [TypeError], whatever else is passed. *)
Theorem Error_call_unknown_keyword (c : class) (a : list value)
    (kwargs : gmap string value) (k : string) (v : value) :
  issubclass c Error = true ->
  kwargs !! k = Some v ->
  k <> "pgresult" ->
  call c a kwargs = Raise TypeError.
Proof.
  intros Hsub Hk Hne. rewrite (call_Error_eq _ _ _ Hsub).
  case_bool_decide as Hdom; [|reflexivity].
  assert (k ∈ dom kwargs) as Hin by (apply elem_of_dom; eauto).
  apply Hdom, elem_of_singleton in Hin. contradiction.
Qed.

Lemma Error_call_unknown_keyword_witness :
  call OperationalError [VStr "server closed the connection"]
    {["pgresult" := VNone; "pgconn" := VInt 3]}
  = Raise TypeError.
Proof.
  apply (Error_call_unknown_keyword OperationalError _ _ "pgconn" (VInt 3)).
  - reflexivity.
  - reflexivity.
  - discriminate.
Defined.

(** X6. [Warning] takes no keyword at all: a call with a keyword, the
    [pgresult] that every other category accepts included, raises
    [TypeError]. The same holds of any class that is not below [Error]. *)
Theorem Warning_call_keyword (c : class) (a : list value)
    (kwargs : gmap string value) (k : string) (v : value) :
  issubclass c Error = false ->
  kwargs !! k = Some v ->
  call c a kwargs = Raise TypeError.
Proof.
  intros Hsub Hk. rewrite (call_not_Error_eq _ _ _ Hsub).
  case_bool_decide as Hdom; [|reflexivity].
  assert (k ∈ dom kwargs) as Hin by (apply elem_of_dom; eauto).
  rewrite Hdom in Hin. by apply not_elem_of_empty in Hin.
Qed.

Lemma Warning_call_keyword_witness :
  call Warning [VStr "data truncated"]
    {["pgresult" := VResult unique_violation]}
  = Raise TypeError.
Proof.
  apply (Warning_call_keyword Warning _ _ "pgresult"
           (VResult unique_violation)).
  - reflexivity.
  - reflexivity.
Defined.

(** X7. A call with positional arguments only never raises, for any class
    of the module and any arguments: it gives an object of that class with
    those arguments. *)
Theorem call_positional_succeeds (c : class) (a : list value) :
  exists o, call c a ∅ = Ok o /\ ob_type o = c /\ args o = a.
Proof.
  destruct (issubclass c Error) eqn:Hsub.
  - rewrite (call_Error_eq _ _ _ Hsub). eexists. by split.
  - rewrite (call_not_Error_eq _ _ _ Hsub). eexists. by split.
Qed.

(** X8. Whatever object a call returns, for any class and any keywords, it
    has the called class as its type and the positional arguments as its
    [args]; it has a [pgresult] attribute exactly when it is an [Error]
    instance, and no other attribute. *)
Theorem call_postcondition (c : class) (a : list value)
    (kwargs : gmap string value) (o : instance) :
  call c a kwargs = Ok o ->
  ob_type o = c
  /\ args o = a
  /\ hasattr o "pgresult" = isinstance o Error
  /\ dom (ob_dict o) ⊆ {["pgresult"]}.
Proof.
  destruct (issubclass c Error) eqn:Hsub.
  - rewrite (call_Error_eq _ _ _ Hsub).
    case_bool_decide; [|discriminate]. intros [= <-].
    unfold isinstance; simpl. rewrite Hsub.
    split; [reflexivity|]. split; [reflexivity|]. split; [reflexivity|].
    by rewrite dom_singleton_L.
  - rewrite (call_not_Error_eq _ _ _ Hsub).
    case_bool_decide; [|discriminate]. intros [= <-].
    unfold isinstance; simpl. rewrite Hsub.
    split; [reflexivity|]. split; [reflexivity|]. split; [reflexivity|].
    by rewrite dom_empty_L.
Qed.

Lemma call_postcondition_witness :
  call ProgrammingError [VStr "syntax error at or near FROM"; VInt 42601]
    {["pgresult" := VResult unique_violation]}
  = Ok {| ob_type := ProgrammingError;
          args := [VStr "syntax error at or near FROM"; VInt 42601];
          ob_dict := {["pgresult" := VResult unique_violation]} |}
  /\ hasattr
       {| ob_type := ProgrammingError;
          args := [VStr "syntax error at or near FROM"; VInt 42601];
          ob_dict := {["pgresult" := VResult unique_violation]} |}
       "pgresult"
     = isinstance
         {| ob_type := ProgrammingError;
            args := [VStr "syntax error at or near FROM"; VInt 42601];
            ob_dict := {["pgresult" := VResult unique_violation]} |}
         Error.
Proof.
  split; [reflexivity|].
  apply (call_postcondition ProgrammingError
           [VStr "syntax error at or near FROM"; VInt 42601]
           {["pgresult" := VResult unique_violation]}).
  reflexivity.
Defined.

(** X9. Running [__init__] again on an error that a call returned is the
    same as calling the class afresh with the new arguments: the earlier
    [args] and [pgresult] leave no trace, and a keyword that a fresh call
    refuses is refused here too. *)
Theorem Error_init_again (c : class) (a a' : list value)
    (kwargs kwargs' : gmap string value) (o : instance) :
  issubclass c Error = true ->
  call c a kwargs = Ok o ->
  Error_init o a' kwargs' = call c a' kwargs'.
Proof.
  intros Hsub. rewrite !(call_Error_eq _ _ _ Hsub).
  case_bool_decide; [|discriminate]. intros [= <-].
  unfold Error_init. case_bool_decide; [|reflexivity].
  rewrite Exception_init_positional. unfold setattr; simpl.
  by rewrite insert_singleton_eq.
Qed.

Lemma Error_init_again_witness :
  Error_init
    {| ob_type := DataError; args := [VStr "division by zero"];
       ob_dict := {["pgresult" := VResult unique_violation]} |}
    [VStr "numeric value out of range"] ∅
  = call DataError [VStr "numeric value out of range"] ∅.
Proof.
  apply (Error_init_again DataError [VStr "division by zero"]
           [VStr "numeric value out of range"]
           {["pgresult" := VResult unique_violation]} ∅).
  - reflexivity.
  - reflexivity.
Defined.

(** ** The factory *)

(** X10. [error_from_result] never raises, and the error it returns is
    matched by [DatabaseError], [Error] and [Exception] and by no other
    class of the module: no handler for a specific category, for
    [InterfaceError] or for [Warning] catches it. *)
Theorem error_from_result_handlers (r : PGresult) :
  exists e, error_from_result r = Ok e
            /\ forall c, isinstance e c = true
                         <-> c ∈ [DatabaseError; Error; Exception].
Proof.
  eexists. split; [apply error_from_result_eq|].
  intros c. unfold isinstance; simpl.
  rewrite !elem_of_cons, elem_of_nil.
  split.
  - intros H. destruct c; try discriminate H; auto.
  - intros [->|[->|[->|[]]]]; reflexivity.
Qed.

(** X11. The error depends on the result through [pq.error_message] alone:
    two results with the same message give equal errors, whatever their
    SQLSTATE codes and other fields. *)
Theorem error_from_result_message_only (r r' : PGresult) :
  error_message r = error_message r' ->
  error_from_result r = error_from_result r'.
Proof. intros Hm. rewrite !error_from_result_eq. by rewrite Hm. Qed.

Lemma error_from_result_message_only_witness :
  error_from_result
    {| sqlstate := Some (b "42601");
       message_primary := Some "connection pool exhausted";
       severity := Some "ERROR";
       message_detail := None;
       message_hint := Some "retry later";
       context := None;
       source_file := None;
       source_line := None;
       source_function := None |}
  = error_from_result pool_exhausted.
Proof.
  apply error_from_result_message_only. reflexivity.
Defined.
